(** * The OpenCL 2.0 / 2.1 entry-point header [new21.h]

    [new21.h] is a C header: a flat sequence of [extern] function
    prototypes, each preceded by a banner comment.  The development
    below keeps the header as it is written (its lines, verbatim),
    gives the lexical structure of the C text (identifiers,
    punctuation, block and line comments), reads the token stream as a
    sequence of top-level items, and then states what the header
    declares as properties of the items that were read. *)

From Stdlib Require Import String Ascii List Bool Arith Lia.
Import ListNotations.
Local Open Scope string_scope.
Local Open Scope list_scope.
Local Open Scope nat_scope.

(** ** The text of the header *)

Module Source.

(** The lines of [src/new21.h], in order, without their line ends. *)
Definition new21_h : list string :=
  [
    "    //############################### NEW 2.1 #################################";
    "    extern CL_API_ENTRY cl_int CL_API_CALL";
    "    clSetDefaultDeviceCommandQueue(cl_context           /* context */,";
    "                                   cl_device_id         /* device */,";
    "                                   cl_command_queue     /* command_queue */) CL_API_SUFFIX__VERSION_2_1;";
    EmptyString;
    "    //############################### NEW 2.1 #################################";
    "    extern CL_API_ENTRY cl_int CL_API_CALL";
    "    clGetDeviceAndHostTimer(cl_device_id    /* device */,";
    "                            cl_ulong*       /* device_timestamp */,";
    "                            cl_ulong*       /* host_timestamp */) CL_API_SUFFIX__VERSION_2_1;";
    EmptyString;
    "    //############################### NEW 2.1 #################################";
    "    extern CL_API_ENTRY cl_int CL_API_CALL";
    "    clGetHostTimer(cl_device_id /* device */,";
    "                   cl_ulong *   /* host_timestamp */)  CL_API_SUFFIX__VERSION_2_1;";
    EmptyString;
    "    //############################### NEW 2.0 #################################";
    "    extern CL_API_ENTRY cl_command_queue CL_API_CALL";
    "    clCreateCommandQueueWithProperties(cl_context               /* context */,";
    "                                       cl_device_id             /* device */,";
    "                                       const cl_queue_properties *    /* properties */,";
    "                                       cl_int *                 /* errcode_ret */) CL_API_SUFFIX__VERSION_2_0;";
    EmptyString;
    EmptyString;
    "    //############################### NEW 2.0 #################################";
    "    extern CL_API_ENTRY cl_mem CL_API_CALL";
    "    clCreatePipe(cl_context                 /* context */,";
    "                 cl_mem_flags               /* flags */,";
    "                 cl_uint                    /* pipe_packet_size */,";
    "                 cl_uint                    /* pipe_max_packets */,";
    "                 const cl_pipe_properties * /* properties */,";
    "                 cl_int *                   /* errcode_ret */) CL_API_SUFFIX__VERSION_2_0;";
    EmptyString;
    EmptyString;
    "    //############################### NEW 2.0 #################################";
    "    extern CL_API_ENTRY cl_int CL_API_CALL";
    "    clGetPipeInfo(cl_mem           /* pipe */,";
    "                  cl_pipe_info     /* param_name */,";
    "                  size_t           /* param_value_size */,";
    "                  void *           /* param_value */,";
    "                  size_t *         /* param_value_size_ret */) CL_API_SUFFIX__VERSION_2_0;";
    EmptyString;
    "    // SVM Allocation APIs ";
    "    //############################### NEW 2.0 #################################";
    "    extern CL_API_ENTRY void * CL_API_CALL";
    "    clSVMAlloc(cl_context       /* context */,";
    "               cl_svm_mem_flags /* flags */,";
    "               size_t           /* size */,";
    "               cl_uint          /* alignment */) CL_API_SUFFIX__VERSION_2_0;";
    EmptyString;
    "    //############################### NEW 2.0 #################################";
    "    extern CL_API_ENTRY void CL_API_CALL";
    "    clSVMFree(cl_context        /* context */,";
    "              void *            /* svm_pointer */) CL_API_SUFFIX__VERSION_2_0;";
    EmptyString;
    EmptyString;
    "    //############################### NEW 2.0 #################################";
    "    extern CL_API_ENTRY cl_sampler CL_API_CALL";
    "    clCreateSamplerWithProperties(cl_context                     /* context */,";
    "                                  const cl_sampler_properties *  /* normalized_coords */,";
    "                                  cl_int *                       /* errcode_ret */) CL_API_SUFFIX__VERSION_2_0;";
    EmptyString;
    "    //############################### NEW 2.1 #################################";
    "    extern CL_API_ENTRY cl_program CL_API_CALL";
    "    clCreateProgramWithIL(cl_context    /* context */,";
    "                         const void*    /* il */,";
    "                         size_t         /* length */,";
    "                         cl_int*        /* errcode_ret */) CL_API_SUFFIX__VERSION_2_1;";
    EmptyString;
    "    //############################### NEW 2.1 #################################";
    "    extern CL_API_ENTRY cl_kernel CL_API_CALL";
    "    clCloneKernel(cl_kernel     /* source_kernel */,";
    "                  cl_int*       /* errcode_ret */) CL_API_SUFFIX__VERSION_2_1;";
    EmptyString;
    "    //############################### NEW 2.0 #################################";
    "    extern CL_API_ENTRY cl_int CL_API_CALL";
    "    clSetKernelArgSVMPointer(cl_kernel    /* kernel */,";
    "                             cl_uint      /* arg_index */,";
    "                             const void * /* arg_value */) CL_API_SUFFIX__VERSION_2_0;";
    EmptyString;
    "    //############################### NEW 2.0 #################################";
    "    extern CL_API_ENTRY cl_int CL_API_CALL";
    "    clSetKernelExecInfo(cl_kernel            /* kernel */,";
    "                        cl_kernel_exec_info  /* param_name */,";
    "                        size_t               /* param_value_size */,";
    "                        const void *         /* param_value */) CL_API_SUFFIX__VERSION_2_0;";
    EmptyString;
    EmptyString;
    "    //############################### NEW 2.1 #################################";
    "    extern CL_API_ENTRY cl_int CL_API_CALL";
    "    clGetKernelSubGroupInfo(cl_kernel                   /* kernel */,";
    "                            cl_device_id                /* device */,";
    "                            cl_kernel_sub_group_info    /* param_name */,";
    "                            size_t                      /* input_value_size */,";
    "                            const void*                 /*input_value */,";
    "                            size_t                      /* param_value_size */,";
    "                            void*                       /* param_value */,";
    "                            size_t*                     /* param_value_size_ret */ ) CL_API_SUFFIX__VERSION_2_1;";
    EmptyString;
    EmptyString;
    "    //############################### NEW 2.0 #################################";
    "    extern CL_API_ENTRY cl_int CL_API_CALL";
    "    clEnqueueSVMFree(cl_command_queue  /* command_queue */,";
    "                     cl_uint           /* num_svm_pointers */,";
    "                     void *[]          /* svm_pointers[] */,";
    "                     void (CL_CALLBACK * /*pfn_free_func*/)(cl_command_queue /* queue */,";
    "                                                            cl_uint          /* num_svm_pointers */,";
    "                                                            void *[]         /* svm_pointers[] */,";
    "                                                            void *           /* user_data */),";
    "                     void *            /* user_data */,";
    "                     cl_uint           /* num_events_in_wait_list */,";
    "                     const cl_event *  /* event_wait_list */,";
    "                     cl_event *        /* event */) CL_API_SUFFIX__VERSION_2_0;";
    EmptyString;
    "    //############################### NEW 2.0 #################################";
    "    extern CL_API_ENTRY cl_int CL_API_CALL";
    "    clEnqueueSVMMemcpy(cl_command_queue  /* command_queue */,";
    "                       cl_bool           /* blocking_copy */,";
    "                       void *            /* dst_ptr */,";
    "                       const void *      /* src_ptr */,";
    "                       size_t            /* size */,";
    "                       cl_uint           /* num_events_in_wait_list */,";
    "                       const cl_event *  /* event_wait_list */,";
    "                       cl_event *        /* event */) CL_API_SUFFIX__VERSION_2_0;";
    EmptyString;
    "    //############################### NEW 2.0 #################################";
    "    extern CL_API_ENTRY cl_int CL_API_CALL";
    "    clEnqueueSVMMemFill(cl_command_queue  /* command_queue */,";
    "                        void *            /* svm_ptr */,";
    "                        const void *      /* pattern */,";
    "                        size_t            /* pattern_size */,";
    "                        size_t            /* size */,";
    "                        cl_uint           /* num_events_in_wait_list */,";
    "                        const cl_event *  /* event_wait_list */,";
    "                        cl_event *        /* event */) CL_API_SUFFIX__VERSION_2_0;";
    EmptyString;
    "    //############################### NEW 2.0 #################################";
    "    extern CL_API_ENTRY cl_int CL_API_CALL";
    "    clEnqueueSVMMap(cl_command_queue  /* command_queue */,";
    "                    cl_bool           /* blocking_map */,";
    "                    cl_map_flags      /* flags */,";
    "                    void *            /* svm_ptr */,";
    "                    size_t            /* size */,";
    "                    cl_uint           /* num_events_in_wait_list */,";
    "                    const cl_event *  /* event_wait_list */,";
    "                    cl_event *        /* event */) CL_API_SUFFIX__VERSION_2_0;";
    EmptyString;
    "    //############################### NEW 2.0 #################################";
    "    extern CL_API_ENTRY cl_int CL_API_CALL";
    "    clEnqueueSVMUnmap(cl_command_queue  /* command_queue */,";
    "                      void *            /* svm_ptr */,";
    "                      cl_uint           /* num_events_in_wait_list */,";
    "                      const cl_event *  /* event_wait_list */,";
    "                      cl_event *        /* event */) CL_API_SUFFIX__VERSION_2_0;";
    EmptyString;
    "    //############################### NEW 2.1 #################################";
    "    extern CL_API_ENTRY cl_int CL_API_CALL";
    "    clEnqueueSVMMigrateMem(cl_command_queue         /* command_queue */,";
    "                           cl_uint                  /* num_svm_pointers */,";
    "                           const void **            /* svm_pointers */,";
    "                           const size_t *           /* sizes */,";
    "                           cl_mem_migration_flags   /* flags */,";
    "                           cl_uint                  /* num_events_in_wait_list */,";
    "                           const cl_event *         /* event_wait_list */,";
    "                           cl_event *               /* event */) CL_API_SUFFIX__VERSION_2_1;"
  ].

(** A line end. *)
Definition nl : ascii := "010"%char.

(** The header as one text: every line is closed by a line end. *)
Definition text (ls : list string) : string :=
  fold_right (fun l acc => (l ++ String nl acc)%string) EmptyString ls.

End Source.

(** ** Lexical structure *)

Module Lexer.
Import Source.

(** The tokens of the C text.  A word is a maximal run of letters,
    digits and underscores (identifiers, keywords and macro names
    alike); a comment keeps its text with the blanks around it
    removed, since the header names its parameters in comments. *)
Inductive token : Type :=
| TId (s : string)
| TPunct (c : ascii)
| TBlock (s : string)
| TLine (s : string).

Definition slash : ascii := "047"%char.
Definition star : ascii := "042"%char.
Definition underscore : ascii := "095"%char.
Definition space : ascii := "032"%char.

Definition in_range (lo hi : nat) (c : ascii) : bool :=
  let n := nat_of_ascii c in (lo <=? n) && (n <=? hi).

Definition is_ident_char (c : ascii) : bool :=
  in_range 97 122 c || in_range 65 90 c || in_range 48 57 c
  || Ascii.eqb c underscore.

Definition is_space (c : ascii) : bool :=
  Ascii.eqb c space || in_range 9 13 c.

Fixpoint drop_spaces (l : list ascii) : list ascii :=
  match l with
  | c :: r => if is_space c then drop_spaces r else l
  | [] => []
  end.

(** The text gathered so far is kept last character first. *)
Definition word_of (cur : list ascii) : string :=
  string_of_list_ascii (rev cur).

Definition comment_of (cur : list ascii) : string :=
  string_of_list_ascii (drop_spaces (rev (drop_spaces cur))).

Inductive mode : Type := MCode | MSlash | MBlock | MBlockStar | MLine.

Record state : Type := mk_state {
  st_mode : mode;
  st_cur : list ascii;
  st_out : list token
}.

Definition flush (cur : list ascii) (out : list token) : list token :=
  match cur with
  | [] => out
  | _ :: _ => TId (word_of cur) :: out
  end.

Definition code_step (cur : list ascii) (out : list token) (c : ascii)
  : state :=
  if is_ident_char c then mk_state MCode (c :: cur) out
  else
    let out' := flush cur out in
    if Ascii.eqb c slash then mk_state MSlash [] out'
    else if is_space c then mk_state MCode [] out'
    else mk_state MCode [] (TPunct c :: out').

Definition step (s : state) (c : ascii) : state :=
  let cur := st_cur s in
  let out := st_out s in
  match st_mode s with
  | MCode => code_step cur out c
  | MSlash =>
      if Ascii.eqb c star then mk_state MBlock [] out
      else if Ascii.eqb c slash then mk_state MLine [] out
      else code_step [] (TPunct slash :: out) c
  | MBlock =>
      if Ascii.eqb c star then mk_state MBlockStar cur out
      else mk_state MBlock (c :: cur) out
  | MBlockStar =>
      if Ascii.eqb c slash
      then mk_state MCode [] (TBlock (comment_of cur) :: out)
      else if Ascii.eqb c star then mk_state MBlockStar (star :: cur) out
      else mk_state MBlock (c :: star :: cur) out
  | MLine =>
      if Ascii.eqb c nl
      then mk_state MCode [] (TLine (comment_of cur) :: out)
      else mk_state MLine (c :: cur) out
  end.

Fixpoint run (s : state) (t : string) : state :=
  match t with
  | EmptyString => s
  | String c t' => run (step s c) t'
  end.

(** At the end of the text a block comment must have been closed. *)
Definition finish (s : state) : option (list token) :=
  match st_mode s with
  | MCode => Some (rev (flush (st_cur s) (st_out s)))
  | MSlash => Some (rev (TPunct slash :: st_out s))
  | MLine => Some (rev (TLine (comment_of (st_cur s)) :: st_out s))
  | MBlock | MBlockStar => None
  end.

Definition lex (t : string) : option (list token) :=
  finish (run (mk_state MCode [] []) t).

Definition token_eqb (a b : token) : bool :=
  match a, b with
  | TId x, TId y => String.eqb x y
  | TPunct x, TPunct y => Ascii.eqb x y
  | TBlock x, TBlock y => String.eqb x y
  | TLine x, TLine y => String.eqb x y
  | _, _ => false
  end.

(** The words of a token list: comments carry none. *)
Fixpoint words (ts : list token) : list string :=
  match ts with
  | [] => []
  | TId s :: r => s :: words r
  | _ :: r => words r
  end.

Fixpoint puncts (ts : list token) : list ascii :=
  match ts with
  | [] => []
  | TPunct c :: r => c :: puncts r
  | _ :: r => puncts r
  end.

End Lexer.

(** ** Top-level items *)

Module Header.
Import Source Lexer.

(** A parameter as the header writes it: the tokens of its type, and
    the names given to it in comments (the first one is the name of
    the parameter; a callback parameter also names the parameters of
    the callback). *)
Record param : Type := mk_param {
  p_type : list string;
  p_names : list string
}.

(** An entry point: [extern CL_API_ENTRY ret CL_API_CALL name(params)
    suffix;] together with the banner comments written above it. *)
Record decl : Type := mk_decl {
  d_banner : list string;
  d_ret : list string;
  d_name : string;
  d_params : list param;
  d_suffix : list string
}.

(** A top-level item is an entry-point declaration or anything else
    (a definition, a function with a body, a variable, a directive). *)
Inductive item : Type :=
| IDecl (d : decl)
| IOther (ts : list token).

Definition punct_in (cs : list ascii) (c : ascii) : bool :=
  existsb (Ascii.eqb c) cs.

Definition opens : ascii -> bool := punct_in ["("; "["; "{"]%char.
Definition closes : ascii -> bool := punct_in [")"; "]"; "}"]%char.
Definition semicolon : ascii := ";"%char.
Definition comma : ascii := ","%char.
Definition lparen : ascii := "("%char.
Definition rparen : ascii := ")"%char.
Definition rbrace : ascii := "}"%char.

(** Items end at a semicolon outside all brackets, or at the brace
    that closes a body. *)
Fixpoint split_items (depth : nat) (cur : list token) (ts : list token)
  : list (list token) :=
  match ts with
  | [] => match cur with [] => [] | _ :: _ => [rev cur] end
  | TPunct c :: r =>
      let cur' := TPunct c :: cur in
      if opens c then split_items (S depth) cur' r
      else if closes c then
        if (pred depth =? 0) && Ascii.eqb c rbrace
        then rev cur' :: split_items 0 [] r
        else split_items (pred depth) cur' r
      else if Ascii.eqb c semicolon && (depth =? 0)
      then rev cur' :: split_items 0 [] r
      else split_items depth cur' r
  | t :: r => split_items depth (t :: cur) r
  end.

(** The banner: the line comments an item starts with. *)
Fixpoint take_banner (ts : list token) : list string * list token :=
  match ts with
  | TLine s :: r => let (b, r') := take_banner r in (s :: b, r')
  | _ => ([], ts)
  end.

(** The tokens before the first opening parenthesis, and what follows
    that parenthesis. *)
Fixpoint take_head (ts : list token) : option (list token * list token) :=
  match ts with
  | [] => None
  | TPunct c :: r =>
      if Ascii.eqb c lparen then Some ([], r)
      else option_map (fun '(h, a) => (TPunct c :: h, a)) (take_head r)
  | t :: r => option_map (fun '(h, a) => (t :: h, a)) (take_head r)
  end.

(** The tokens up to the parenthesis that closes the one already
    open, and what follows it. *)
Fixpoint take_group (depth : nat) (ts : list token)
  : option (list token * list token) :=
  match ts with
  | [] => None
  | TPunct c :: r =>
      if opens c then
        option_map (fun '(g, a) => (TPunct c :: g, a)) (take_group (S depth) r)
      else if closes c then
        match depth with
        | O => if Ascii.eqb c rparen then Some ([], r) else None
        | S d =>
            option_map (fun '(g, a) => (TPunct c :: g, a)) (take_group d r)
        end
      else option_map (fun '(g, a) => (TPunct c :: g, a)) (take_group depth r)
  | t :: r => option_map (fun '(g, a) => (t :: g, a)) (take_group depth r)
  end.

(** The parameters of a group: split at the commas outside brackets. *)
Fixpoint split_params (depth : nat) (cur : list token) (ts : list token)
  : list (list token) :=
  match ts with
  | [] => [rev cur]
  | TPunct c :: r =>
      if opens c then split_params (S depth) (TPunct c :: cur) r
      else if closes c then split_params (pred depth) (TPunct c :: cur) r
      else if Ascii.eqb c comma && (depth =? 0)
      then rev cur :: split_params 0 [] r
      else split_params depth (TPunct c :: cur) r
  | t :: r => split_params depth (t :: cur) r
  end.

Fixpoint type_tokens (ts : list token) : list string :=
  match ts with
  | [] => []
  | TId s :: r => s :: type_tokens r
  | TPunct c :: r => String c EmptyString :: type_tokens r
  | _ :: r => type_tokens r
  end.

Fixpoint block_comments (ts : list token) : list string :=
  match ts with
  | [] => []
  | TBlock s :: r => s :: block_comments r
  | _ :: r => block_comments r
  end.

Definition read_param (ts : list token) : param :=
  mk_param (type_tokens ts) (block_comments ts).

Definition read_params (g : list token) : list param :=
  match g with
  | [] => []
  | _ :: _ => map read_param (split_params 0 [] g)
  end.

Definition is_comment (t : token) : bool :=
  match t with
  | TBlock _ | TLine _ => true
  | _ => false
  end.

Definition is_line_comment (t : token) : bool :=
  match t with
  | TLine _ => true
  | _ => false
  end.

Definition is_word_token (t : token) : bool :=
  match t with
  | TId _ => true
  | _ => false
  end.

(** The specifiers of a prototype: [extern CL_API_ENTRY], the return
    type, [CL_API_CALL], and the name. *)
Definition read_specifiers (h : list token)
  : option (list string * string) :=
  if existsb is_comment h then None
  else
    match h with
    | TId st :: TId en :: r =>
        match rev r with
        | TId nm :: TId cc :: ret_rev =>
            if String.eqb st "extern" && String.eqb en "CL_API_ENTRY"
               && String.eqb cc "CL_API_CALL"
               && negb (length ret_rev =? 0)
            then Some (type_tokens (rev ret_rev), nm)
            else None
        | _ => None
        end
    | _ => None
    end.

(** What follows the parameter list: words, then the semicolon. *)
Definition read_suffix (a : list token) : option (list string) :=
  match rev a with
  | TPunct c :: sfx_rev =>
      if Ascii.eqb c semicolon && forallb is_word_token sfx_rev
      then Some (words (rev sfx_rev))
      else None
  | _ => None
  end.

Definition read_item (ts : list token) : item :=
  let (banner, body) := take_banner ts in
  if existsb is_line_comment body then IOther ts
  else
    match take_head body with
    | None => IOther ts
    | Some (h, a) =>
        match read_specifiers h, take_group 0 a with
        | Some (ret, nm), Some (g, tl) =>
            match read_suffix tl with
            | Some sfx => IDecl (mk_decl banner ret nm (read_params g) sfx)
            | None => IOther ts
            end
        | _, _ => IOther ts
        end
    end.

Definition read_tokens (ts : list token) : list item :=
  map read_item (split_items 0 [] ts).

(** Reading a header: [None] when the text is not lexically complete. *)
Definition read_header (ls : list string) : option (list item) :=
  option_map read_tokens (lex (text ls)).

Definition items : list item :=
  match read_header new21_h with
  | Some l => l
  | None => []
  end.

Fixpoint decls_of (l : list item) : list decl :=
  match l with
  | [] => []
  | IDecl d :: r => d :: decls_of r
  | IOther _ :: r => decls_of r
  end.

(** The entry points that [new21.h] declares. *)
Definition declarations : list decl := decls_of items.

End Header.

(** ** What the declarations say *)

Module Spec.
Import Source Lexer Header.

Definition list_eqb (a b : list string) : bool :=
  (length a =? length b)
  && forallb (fun '(x, y) => String.eqb x y) (combine a b).

Definition mem (s : string) (l : list string) : bool :=
  existsb (String.eqb s) l.

(** *** API revisions *)

Inductive revision : Type := V2_0 | V2_1.

Definition version_2_0 : string := "CL_API_SUFFIX__VERSION_2_0".
Definition version_2_1 : string := "CL_API_SUFFIX__VERSION_2_1".

(** The revision that introduced an entry point, read off its suffix;
    [None] when the suffix is not exactly one version macro. *)
Definition introduced (d : decl) : option revision :=
  match d_suffix d with
  | [s] =>
      if String.eqb s version_2_0 then Some V2_0
      else if String.eqb s version_2_1 then Some V2_1
      else None
  | _ => None
  end.

(** *** Sizes *)

Definition dist (a b : nat) : nat := (a - b) + (b - a).

(** [k] is about [n]: off by no more than [pct] percent of [n]. *)
Definition within (pct n k : nat) : Prop := 100 * dist n k <= pct * n.

Definition about (n k : nat) : Prop := within 10 n k.

(** *** Error reporting *)

Definition returns_status (d : decl) : bool :=
  list_eqb (d_ret d) ["cl_int"].

(** The out-parameter [cl_int * /* errcode_ret */]. *)
Definition is_errcode_ret (p : param) : bool :=
  list_eqb (p_type p) ["cl_int"; "*"]
  && match p_names p with
     | nm :: _ => String.eqb nm "errcode_ret"
     | [] => false
     end.

Definition takes_errcode_ret (d : decl) : bool :=
  existsb is_errcode_ret (d_params d).

Definition has_error_channel (d : decl) : bool :=
  returns_status d || takes_errcode_ret d.

(** An object handle is one of the API's [cl_...] object types; the
    status type [cl_int] is not one. *)
Definition returns_handle (d : decl) : bool :=
  match d_ret d with
  | [t] => String.prefix "cl_" t && negb (String.eqb t "cl_int")
  | _ => false
  end.

Definition last_param_is_errcode_ret (d : decl) : bool :=
  match rev (d_params d) with
  | p :: _ => is_errcode_ret p
  | [] => false
  end.

(** *** Functional groups *)

Definition queue_creation (d : decl) : bool :=
  String.eqb (d_name d) "clCreateCommandQueueWithProperties".

Definition svm_management (d : decl) : bool :=
  mem (d_name d) ["clSVMAlloc"; "clSVMFree"; "clSetKernelArgSVMPointer"].

Definition kernel_cloning (d : decl) : bool :=
  String.eqb (d_name d) "clCloneKernel".

Definition sub_group_introspection (d : decl) : bool :=
  String.eqb (d_name d) "clGetKernelSubGroupInfo".

Definition async_svm (d : decl) : bool :=
  String.prefix "clEnqueueSVM" (d_name d).

Definition groups : list (decl -> bool) :=
  [queue_creation; svm_management; kernel_cloning;
   sub_group_introspection; async_svm].

Definition in_some_group (d : decl) : bool :=
  existsb (fun g => g d) groups.

Definition names (ds : list decl) : list string := map d_name ds.

(** The entry points cover exactly the groups: every group has an
    entry point, and every entry point is in a group. *)
Definition covers_exactly (ds : list decl) : Prop :=
  (forall g, In g groups -> exists d, In d ds /\ g d = true)
  /\ (forall d, In d ds -> in_some_group d = true).

(** *** Words and where they stand *)

Inductive position : Type :=
| PStorage | PEntry | PReturn | PCall | PName | PParam | PSuffix.

Definition is_word (s : string) : bool :=
  match s with
  | String c _ => is_ident_char c
  | EmptyString => false
  end.

Definition at_pos (p : position) (l : list string)
  : list (string * position) :=
  map (fun s => (s, p)) (filter is_word l).

(** The words of a declaration, in the order the header writes them,
    each with the place it has in the prototype. *)
Definition placed_words (d : decl) : list (string * position) :=
  [("extern", PStorage); ("CL_API_ENTRY", PEntry)]
  ++ at_pos PReturn (d_ret d)
  ++ [("CL_API_CALL", PCall); (d_name d, PName)]
  ++ at_pos PParam (concat (map p_type (d_params d)))
  ++ at_pos PSuffix (d_suffix d).

Definition all_placed_words : list (string * position) :=
  concat (map placed_words declarations).

(** The types the header mentions: the API's [cl_...] types and the C
    types [size_t] and [void]. *)
Definition is_type_name (s : string) : bool :=
  String.prefix "cl_" s || mem s ["size_t"; "void"].

Definition type_position (p : position) : bool :=
  match p with
  | PReturn | PParam => true
  | _ => false
  end.

(** Words that would start a definition of a type, a constant or an
    object. *)
Definition defining_keywords : list string :=
  ["typedef"; "struct"; "union"; "enum"; "define"; "static"].

(** Words of statements and control flow. *)
Definition control_keywords : list string :=
  ["if"; "else"; "for"; "while"; "do"; "switch"; "case"; "default";
   "break"; "continue"; "return"; "goto"].

(** The only punctuation a prototype needs. *)
Definition prototype_punctuation : list ascii :=
  ["("; ")"; ","; ";"; "*"; "["; "]"]%char.

Definition header_tokens : list token :=
  match lex (text new21_h) with
  | Some ts => ts
  | None => []
  end.

(** *** Dependencies *)

(** The words of a prototype other than its own name. *)
Definition used_words (d : decl) : list string :=
  d_ret d ++ concat (map p_type (d_params d)) ++ d_suffix d.

(** The declared entry points a declaration refers to. *)
Definition depends_on (ds : list decl) (d : decl) : list string :=
  filter (fun n => mem n (used_words d)) (names ds).

Definition is_decl (i : item) : bool :=
  match i with
  | IDecl _ => true
  | IOther _ => false
  end.

(** *** Lines *)

Inductive line_kind : Type := LBlank | LComment | LCode | LBroken.

Definition classify_line (l : string) : line_kind :=
  match lex l with
  | None => LBroken
  | Some [] => LBlank
  | Some ts => if forallb is_comment ts then LComment else LCode
  end.

Definition line_kind_eqb (a b : line_kind) : bool :=
  match a, b with
  | LBlank, LBlank | LComment, LComment | LCode, LCode
  | LBroken, LBroken => true
  | _, _ => false
  end.

Definition count_kind (k : line_kind) (ls : list string) : nat :=
  length (filter (fun l => line_kind_eqb (classify_line l) k) ls).

Definition logic_token (t : token) : bool :=
  match t with
  | TId s => mem s control_keywords || mem s defining_keywords
  | TPunct c => negb (punct_in prototype_punctuation c)
  | _ => false
  end.

(** A line carries logic when one of its tokens is a statement or
    definition keyword, an operator, or a brace. *)
Definition logic_line (l : string) : bool :=
  match lex l with
  | Some ts => existsb logic_token ts
  | None => true
  end.

Definition tokens_of_line (l : string) : list token :=
  match lex l with
  | Some ts => ts
  | None => []
  end.

Definition suffix_of (v : revision) : string :=
  match v with
  | V2_0 => version_2_0
  | V2_1 => version_2_1
  end.

(** *** Prototypes *)

Definition header_items : list (list token) := split_items 0 [] header_tokens.

(** The tokens of one prototype, with its banner: nothing stands
    between the closing parenthesis and the semicolon but the suffix
    words. *)
Definition is_prototype (ts : list token) : Prop :=
  exists banner rt name g sfx,
    ts = map TLine banner
         ++ [TId "extern"; TId "CL_API_ENTRY"] ++ rt
         ++ [TId "CL_API_CALL"; TId name; TPunct lparen] ++ g
         ++ [TPunct rparen] ++ map TId sfx ++ [TPunct semicolon].

(** The return type of a function and nothing more: one type name,
    then only pointer stars.  A second declarator, a comma or any
    other word between [CL_API_ENTRY] and [CL_API_CALL] is not one. *)
Definition return_type_shape (d : decl) : bool :=
  match d_ret d with
  | ty :: stars => is_type_name ty && forallb (String.eqb "*") stars
  | [] => false
  end.

(** *** Two of the entry points, as the header declares them *)

Definition banner_2_0 : string :=
  "############################### NEW 2.0 #################################".

Definition banner_2_1 : string :=
  "############################### NEW 2.1 #################################".

Definition errcode_ret_param : param :=
  mk_param ["cl_int"; "*"] ["errcode_ret"].

Definition clCreatePipe_decl : decl :=
  mk_decl [banner_2_0] ["cl_mem"] "clCreatePipe"
    [mk_param ["cl_context"] ["context"];
     mk_param ["cl_mem_flags"] ["flags"];
     mk_param ["cl_uint"] ["pipe_packet_size"];
     mk_param ["cl_uint"] ["pipe_max_packets"];
     mk_param ["const"; "cl_pipe_properties"; "*"] ["properties"];
     errcode_ret_param]
    [version_2_0].

Definition clCloneKernel_decl : decl :=
  mk_decl [banner_2_1] ["cl_kernel"] "clCloneKernel"
    [mk_param ["cl_kernel"] ["source_kernel"]; errcode_ret_param]
    [version_2_1].

Definition banner_of (v : revision) : string :=
  match v with
  | V2_0 => banner_2_0
  | V2_1 => banner_2_1
  end.

End Spec.

(** ** Writing declarations back *)

Module Redeclare.
Import Source Lexer Header.

Definition join (l : list string) : string := String.concat " " l.

Definition write_comment (s : string) : string :=
  ("/* " ++ s ++ " */")%string.

(** A parameter: its type, then its names as comments. *)
Definition write_param (p : param) : string :=
  join (p_type p ++ map write_comment (p_names p)).

(** One parameter to a line, as the header has them; the last line
    closes the prototype. *)
Fixpoint write_params (ps : list param) (close : string) : list string :=
  match ps with
  | [] => [close]
  | [p] => [(write_param p ++ close)%string]
  | p :: r => (write_param p ++ ",")%string :: write_params r close
  end.

(** A declaration in the layout of the header: the banner, the line of
    specifiers, the name with the first parameter, the remaining
    parameters, and a blank line. *)
Definition write_decl (d : decl) : list string :=
  map (String.append "//") (d_banner d)
  ++ ("extern CL_API_ENTRY " ++ join (d_ret d) ++ " CL_API_CALL")%string
  :: match write_params (d_params d)
             (") " ++ join (d_suffix d) ++ ";")%string with
     | l :: r => (d_name d ++ "(" ++ l)%string :: r
     | [] => []
     end
  ++ [EmptyString].

Definition redeclare (ds : list decl) : list string :=
  concat (map write_decl ds).

End Redeclare.

(** ** Signatures *)

Module Signatures.
Import Source Lexer Header Spec.

Definition param_dec (p q : param) : {p = q} + {p <> q}.
Proof.
  decide equality; apply (list_eq_dec string_dec).
Defined.

Definition params_eqb (a b : list param) : bool :=
  if list_eq_dec param_dec a b then true else false.

(** The name of a parameter: the first name its comments give. *)
Definition p_name (p : param) : option string := hd_error (p_names p).

Definition param_names (d : decl) : list (option string) :=
  map p_name (d_params d).

(** The last [n] parameters of a declaration. *)
Definition last_params (n : nat) (d : decl) : list param :=
  skipn (length (d_params d) - n) (d_params d).

(** *** Parameters the header repeats *)

Definition context_param : param := mk_param ["cl_context"] ["context"].

Definition command_queue_param : param :=
  mk_param ["cl_command_queue"] ["command_queue"].

(** The wait list and the event of an enqueued command. *)
Definition event_params : list param :=
  [mk_param ["cl_uint"] ["num_events_in_wait_list"];
   mk_param ["const"; "cl_event"; "*"] ["event_wait_list"];
   mk_param ["cl_event"; "*"] ["event"]].

(** The value buffer of an information query. *)
Definition info_params : list param :=
  [mk_param ["size_t"] ["param_value_size"];
   mk_param ["void"; "*"] ["param_value"];
   mk_param ["size_t"; "*"] ["param_value_size_ret"]].

Definition takes_type (t : string) (d : decl) : bool :=
  existsb (fun p => mem t (p_type p)) (d_params d).

Definition enqueue_shape (d : decl) : bool :=
  returns_status d
  && params_eqb (firstn 1 (d_params d)) [command_queue_param]
  && (4 <=? length (d_params d))
  && params_eqb (last_params 3 d) event_params.

Definition is_info_query (d : decl) : bool :=
  String.prefix "clGet" (d_name d)
  && String.eqb
       (String.substring (String.length (d_name d) - 4) 4 (d_name d)) "Info".

Definition info_shape (d : decl) : bool :=
  returns_status d
  && params_eqb (last_params 3 d) info_params
  && existsb (fun p => match p_name p with
                       | Some n => String.eqb n "param_name"
                       | None => false
                       end) (d_params d).

Definition is_creator (d : decl) : bool := String.prefix "clCreate" (d_name d).

(** Where a context is taken, it is taken first. *)
Definition context_first (d : decl) : bool :=
  params_eqb (firstn 1 (d_params d)) [context_param]
  && negb (existsb (fun p => mem "cl_context" (p_type p)) (skipn 1 (d_params d))).

(** *** Callbacks *)

Definition is_callback (p : param) : bool := mem "CL_CALLBACK" (p_type p).

Fixpoint split_commas (cur : list string) (l : list string)
  : list (list string) :=
  match l with
  | [] => [rev cur]
  | s :: r =>
      if String.eqb s "," then rev cur :: split_commas [] r
      else split_commas (s :: cur) r
  end.

(** The return type and the argument types of a callback parameter:
    a return type, the parenthesised [CL_CALLBACK] pointer, and the
    parenthesised argument types. *)
Definition callback_signature (p : param)
  : option (list string * list (list string)) :=
  match p_type p with
  | ret :: "(" :: "CL_CALLBACK" :: "*" :: ")" :: "(" :: rest =>
      match rev rest with
      | ")" :: args_rev => Some ([ret], split_commas [] (rev args_rev))
      | _ => None
      end
  | _ => None
  end.

Definition callbacks (d : decl) : list param := filter is_callback (d_params d).

(** The types of the parameters of [d] with the given names, in the
    order of the names. *)
Definition types_of_named (d : decl) (ns : list string)
  : list (list string) :=
  flat_map (fun n =>
              map p_type
                (filter (fun p => match p_name p with
                                  | Some m => String.eqb m n
                                  | None => false
                                  end) (d_params d))) ns.

(** *** Well-formed parameter lists *)

Definition option_string_dec (a b : option string) : {a = b} + {a <> b}.
Proof.
  decide equality; apply string_dec.
Defined.

Definition named_params (d : decl) : bool :=
  forallb (fun p => negb (length (p_type p) =? 0)
                    && negb (length (p_names p) =? 0)) (d_params d)
  && if list_eq_dec option_string_dec
          (nodup option_string_dec (param_names d)) (param_names d)
     then true else false.

(** *** Objects made and objects taken *)

Definition handle_types (ds : list decl) : list string :=
  flat_map (fun d => if returns_handle d then d_ret d else []) ds.

Definition consumers (ds : list decl) (t : string) : list string :=
  names (filter (takes_type t) ds).

(** *** Revisions *)

Definition revision_eqb (v w : revision) : bool :=
  match v, w with
  | V2_0, V2_0 | V2_1, V2_1 => true
  | _, _ => false
  end.

Definition introduced_in (v : revision) (d : decl) : bool :=
  match introduced d with
  | Some w => revision_eqb v w
  | None => false
  end.

(** *** Blocking flags *)

(** The flag of a command that may block: a [cl_bool] named
    [blocking_...], right after the command queue, and the only
    [cl_bool] of the declaration. *)
Definition blocking_shape (d : decl) : bool :=
  match d_params d with
  | q :: p :: rest =>
      list_eqb (p_type p) ["cl_bool"]
      && match p_names p with
         | [n] => String.prefix "blocking_" n
         | _ => false
         end
      && negb (mem "cl_bool" (p_type q))
      && negb (existsb (fun r => mem "cl_bool" (p_type r)) rest)
  | _ => false
  end.

(** *** Shared virtual memory pointers *)

(** The names the header gives to a pointer into shared virtual
    memory that a command may write through or release. *)
Definition svm_pointer_names : list string :=
  ["svm_pointer"; "svm_ptr"; "dst_ptr"].

(** The names it gives to memory that is only read. *)
Definition read_only_names : list string :=
  ["src_ptr"; "pattern"; "arg_value"; "il"; "input_value"].

Definition named_in (ns : list string) (p : param) : bool :=
  match p_name p with
  | Some n => mem n ns
  | None => false
  end.

Definition params_named (ns : list string) (ds : list decl) : list param :=
  flat_map (fun d => filter (named_in ns) (d_params d)) ds.

Definition return_types_of (n : string) (ds : list decl)
  : list (list string) :=
  map d_ret (filter (fun d => String.eqb (d_name d) n) ds).

(** *** More entry points, as the header declares them *)

Definition clEnqueueSVMUnmap_decl : decl :=
  mk_decl [banner_2_0] ["cl_int"] "clEnqueueSVMUnmap"
    (command_queue_param :: mk_param ["void"; "*"] ["svm_ptr"]
     :: event_params)
    [version_2_0].

Definition clEnqueueSVMMemcpy_decl : decl :=
  mk_decl [banner_2_0] ["cl_int"] "clEnqueueSVMMemcpy"
    (command_queue_param :: mk_param ["cl_bool"] ["blocking_copy"]
     :: mk_param ["void"; "*"] ["dst_ptr"]
     :: mk_param ["const"; "void"; "*"] ["src_ptr"]
     :: mk_param ["size_t"] ["size"] :: event_params)
    [version_2_0].

(** The callback of [clEnqueueSVMFree], with the names the header
    gives to it and to its arguments. *)
Definition pfn_free_func_param : param :=
  mk_param
    ["void"; "("; "CL_CALLBACK"; "*"; ")"; "("; "cl_command_queue"; ",";
     "cl_uint"; ","; "void"; "*"; "["; "]"; ","; "void"; "*"; ")"]
    ["pfn_free_func"; "queue"; "num_svm_pointers"; "svm_pointers[]";
     "user_data"].

Definition clEnqueueSVMFree_decl : decl :=
  mk_decl [banner_2_0] ["cl_int"] "clEnqueueSVMFree"
    (command_queue_param :: mk_param ["cl_uint"] ["num_svm_pointers"]
     :: mk_param ["void"; "*"; "["; "]"] ["svm_pointers[]"]
     :: pfn_free_func_param :: mk_param ["void"; "*"] ["user_data"]
     :: event_params)
    [version_2_0].

(** The parameters of [clEnqueueSVMFree] that its callback is given. *)
Definition callback_arguments : list string :=
  ["command_queue"; "num_svm_pointers"; "svm_pointers[]"; "user_data"].

(** The callback of [p] returns nothing and takes, in order, the
    types of the parameters of [d] that it is given. *)
Definition callback_mirrors (d : decl) (p : param) : bool :=
  match callback_signature p with
  | Some (r, args) =>
      list_eqb r ["void"]
      && if list_eq_dec (list_eq_dec string_dec) args
              (types_of_named d callback_arguments)
         then true else false
  | None => false
  end.

Definition clGetPipeInfo_decl : decl :=
  mk_decl [banner_2_0] ["cl_int"] "clGetPipeInfo"
    (mk_param ["cl_mem"] ["pipe"] :: mk_param ["cl_pipe_info"] ["param_name"]
     :: info_params)
    [version_2_0].

End Signatures.

(** The header is read by evaluation only: proofs never unfold its
    tokens, items or declarations step by step. *)
#[global] Opaque Header.items Header.declarations Spec.header_tokens
  Spec.header_items Spec.all_placed_words.

(** ** The reader reads prototypes, and nothing else, as declarations *)

Module ReaderFacts.
Import Source Lexer Header Spec.

Lemma split_items_concat (ts : list token) :
  forall depth cur, concat (split_items depth cur ts) = rev cur ++ ts.
Proof.
  induction ts as [|t r IH]; intros depth cur.
  - destruct cur; simpl; [reflexivity | now rewrite !app_nil_r].
  - destruct t as [s|c|s|s]; simpl;
      try (rewrite IH; simpl; now rewrite <- app_assoc).
    destruct (opens c).
    + rewrite IH; simpl; now rewrite <- app_assoc.
    + destruct (closes c).
      * destruct ((pred depth =? 0) && Ascii.eqb c rbrace); simpl;
          rewrite IH; simpl; now rewrite <- app_assoc.
      * destruct (Ascii.eqb c semicolon && (depth =? 0)); simpl;
          rewrite IH; simpl; now rewrite <- app_assoc.
Qed.

Lemma take_banner_app (ts : list token) :
  forall b body, take_banner ts = (b, body) -> ts = map TLine b ++ body.
Proof.
  induction ts as [|t r IH]; intros b body H.
  - inversion H; reflexivity.
  - destruct t as [s|c|s|s]; try (inversion H; reflexivity).
    simpl in H. destruct (take_banner r) as [b' r'] eqn:E.
    inversion H; subst. simpl. f_equal. now apply IH.
Qed.

Lemma take_head_app (ts : list token) :
  forall h a, take_head ts = Some (h, a) -> ts = h ++ TPunct lparen :: a.
Proof.
  induction ts as [|t r IH]; intros h a H; [discriminate|].
  assert (step : forall h a,
             option_map (fun '(h0, a0) => (t :: h0, a0)) (take_head r)
             = Some (h, a) -> t :: r = h ++ TPunct lparen :: a).
  { intros h0 a0 E. destruct (take_head r) as [[h' a']|]; [|discriminate].
    inversion E; subst. simpl. f_equal. now apply IH. }
  destruct t as [s|c|s|s]; simpl in H; try (now apply step).
  destruct (Ascii.eqb c lparen) eqn:E.
  - apply Ascii.eqb_eq in E. inversion H; subst. reflexivity.
  - now apply step.
Qed.

Lemma take_group_app (ts : list token) :
  forall depth g a,
    take_group depth ts = Some (g, a) -> ts = g ++ TPunct rparen :: a.
Proof.
  induction ts as [|t r IH]; intros depth g a H; [discriminate|].
  assert (step : forall n g a,
             option_map (fun '(g0, a0) => (t :: g0, a0)) (take_group n r)
             = Some (g, a) -> t :: r = g ++ TPunct rparen :: a).
  { intros n g0 a0 E. destruct (take_group n r) as [[g' a']|] eqn:E';
      [|discriminate].
    inversion E; subst. simpl. f_equal. now apply (IH n). }
  destruct t as [s|c|s|s]; simpl in H; try (now apply (step depth)).
  destruct (opens c); [now apply (step (S depth))|].
  destruct (closes c); [|now apply (step depth)].
  destruct depth as [|d]; [|now apply (step d)].
  destruct (Ascii.eqb c rparen) eqn:E; [|discriminate].
  apply Ascii.eqb_eq in E. inversion H; subst. reflexivity.
Qed.

Lemma word_tokens_are_words (l : list token) :
  forallb is_word_token l = true -> l = map TId (words l).
Proof.
  induction l as [|t r IH]; intros H; [reflexivity|].
  destruct t; simpl in H; try discriminate.
  simpl. f_equal. now apply IH.
Qed.

Lemma read_suffix_app (a : list token) (sfx : list string) :
  read_suffix a = Some sfx -> a = map TId sfx ++ [TPunct semicolon].
Proof.
  unfold read_suffix. intros H.
  destruct (rev a) as [|t sfx_rev] eqn:E; [discriminate|].
  destruct t as [s|c|s|s]; try discriminate.
  destruct (Ascii.eqb c semicolon) eqn:Ec; [|discriminate].
  destruct (forallb is_word_token sfx_rev) eqn:Ew; [|discriminate].
  simpl in H. inversion H; subst. apply Ascii.eqb_eq in Ec; subst.
  assert (Ha : a = rev sfx_rev ++ [TPunct semicolon]).
  { rewrite <- (rev_involutive a), E. reflexivity. }
  rewrite Ha at 1. f_equal. apply word_tokens_are_words.
  rewrite forallb_forall in *. intros x Hx. apply Ew. now apply in_rev.
Qed.

Lemma read_specifiers_app (h : list token) (ret : list string) (nm : string) :
  read_specifiers h = Some (ret, nm) ->
  exists rt,
    h = TId "extern" :: TId "CL_API_ENTRY" :: rt
        ++ [TId "CL_API_CALL"; TId nm]
    /\ type_tokens rt = ret /\ rt <> [] /\ existsb is_comment rt = false.
Proof.
  unfold read_specifiers. intros H.
  destruct (existsb is_comment h) eqn:Ec; [discriminate|].
  destruct h as [|[st| | |] [|[en| | |] r]]; try discriminate.
  destruct (rev r) as [|[nm'| | |] [|[cc| | |] ret_rev]] eqn:E;
    try discriminate.
  destruct (String.eqb st "extern") eqn:E1; [|discriminate].
  destruct (String.eqb en "CL_API_ENTRY") eqn:E2; [|discriminate].
  destruct (String.eqb cc "CL_API_CALL") eqn:E3; [|discriminate].
  destruct (length ret_rev =? 0) eqn:E4; [discriminate|].
  simpl in H. inversion H; subst.
  apply String.eqb_eq in E1, E2, E3. subst.
  assert (Hr : r = rev ret_rev ++ [TId "CL_API_CALL"; TId nm]).
  { rewrite <- (rev_involutive r), E. simpl. now rewrite <- app_assoc. }
  exists (rev ret_rev). repeat split.
  - now rewrite Hr.
  - intros Hn. apply (f_equal (@length token)) in Hn.
    rewrite length_rev in Hn. simpl in Hn. rewrite Hn in E4. discriminate.
  - simpl in Ec. rewrite Hr, existsb_app in Ec.
    now apply orb_false_iff in Ec.
Qed.

(** An item read as a declaration is, token for token, its banner
    followed by one prototype: the specifiers, the name, the
    parenthesised parameters, the suffix and the closing semicolon.
    Nothing follows the parameter list but the suffix words, so a
    declaration has no body. *)
Lemma read_item_shape (ts : list token) (d : decl) :
  read_item ts = IDecl d ->
  exists rt g,
    ts = map TLine (d_banner d)
         ++ [TId "extern"; TId "CL_API_ENTRY"] ++ rt
         ++ [TId "CL_API_CALL"; TId (d_name d); TPunct lparen] ++ g
         ++ [TPunct rparen] ++ map TId (d_suffix d) ++ [TPunct semicolon]
    /\ type_tokens rt = d_ret d
    /\ read_params g = d_params d.
Proof.
  unfold read_item. intros H.
  destruct (take_banner ts) as [b body] eqn:Eb.
  destruct (existsb is_line_comment body); [discriminate|].
  destruct (take_head body) as [[h a]|] eqn:Eh; [|discriminate].
  destruct (read_specifiers h) as [[ret nm]|] eqn:Es; [|discriminate].
  destruct (take_group 0 a) as [[g tl]|] eqn:Eg; [|discriminate].
  destruct (read_suffix tl) as [sfx|] eqn:Ex; [|discriminate].
  inversion H; subst; simpl.
  apply take_banner_app in Eb. apply take_head_app in Eh.
  apply take_group_app in Eg. apply read_suffix_app in Ex.
  apply read_specifiers_app in Es. destruct Es as (rt & Hh & Hret & _).
  exists rt, g. repeat split; [|assumption].
  subst. simpl. rewrite <- !app_assoc. reflexivity.
Qed.

End ReaderFacts.

(** ** The header, read *)

Module HeaderFacts.
Import Source Lexer Header Spec ReaderFacts.

Lemma header_lexes : lex (text new21_h) = Some header_tokens.
Proof. vm_compute. reflexivity. Qed.

Lemma header_reads : read_header new21_h = Some items.
Proof. vm_compute. reflexivity. Qed.

Lemma header_reads_declarations :
  read_header new21_h = Some (map IDecl declarations).
Proof. vm_compute. reflexivity. Qed.

Lemma items_are_declarations : items = map IDecl declarations.
Proof. vm_compute. reflexivity. Qed.

Lemma header_items_read : map read_item header_items = map IDecl declarations.
Proof. vm_compute. reflexivity. Qed.

Lemma declared_names :
  names declarations =
  ["clSetDefaultDeviceCommandQueue"; "clGetDeviceAndHostTimer";
   "clGetHostTimer"; "clCreateCommandQueueWithProperties"; "clCreatePipe";
   "clGetPipeInfo"; "clSVMAlloc"; "clSVMFree";
   "clCreateSamplerWithProperties"; "clCreateProgramWithIL";
   "clCloneKernel"; "clSetKernelArgSVMPointer"; "clSetKernelExecInfo";
   "clGetKernelSubGroupInfo"; "clEnqueueSVMFree"; "clEnqueueSVMMemcpy";
   "clEnqueueSVMMemFill"; "clEnqueueSVMMap"; "clEnqueueSVMUnmap";
   "clEnqueueSVMMigrateMem"].
Proof. vm_compute. reflexivity. Qed.

Lemma clCreatePipe_declared : In clCreatePipe_decl declarations.
Proof. vm_compute. do 4 right. left. reflexivity. Qed.

Lemma clCloneKernel_declared : In clCloneKernel_decl declarations.
Proof. vm_compute. do 10 right. left. reflexivity. Qed.

(** The reader tells prototypes from other top-level items. *)
Example reads_a_prototype :
  option_map (map is_decl)
    (read_header
       ["extern CL_API_ENTRY cl_int CL_API_CALL";
        "f(cl_int * /* errcode_ret */) CL_API_SUFFIX__VERSION_2_0;"])
  = Some [true].
Proof. reflexivity. Qed.

Example rejects_a_body :
  option_map (map is_decl)
    (read_header
       ["extern CL_API_ENTRY cl_int CL_API_CALL";
        "f(cl_int * /* errcode_ret */) { return 0; }"])
  = Some [false].
Proof. reflexivity. Qed.

Example rejects_a_type_definition :
  option_map (map is_decl)
    (read_header ["typedef struct _cl_kernel * cl_kernel;"])
  = Some [false].
Proof. reflexivity. Qed.

Example rejects_an_object :
  option_map (map is_decl) (read_header ["extern cl_int last_error;"])
  = Some [false].
Proof. reflexivity. Qed.

Example a_second_declarator_is_not_a_return_type :
  option_map (fun l => map return_type_shape (decls_of l))
    (read_header
       ["extern CL_API_ENTRY cl_int counter, CL_API_CALL";
        "f(cl_int /* x */) CL_API_SUFFIX__VERSION_2_0;"])
  = Some [false].
Proof. reflexivity. Qed.

Example rejects_an_open_comment :
  read_header ["extern /* CL_API_ENTRY cl_int"] = None.
Proof. reflexivity. Qed.

End HeaderFacts.

(** ** What the boolean readings mean *)

Module Reflect.
Import Source Lexer Header Spec.

Lemma list_eqb_eq (a : list string) :
  forall b, list_eqb a b = true <-> a = b.
Proof.
  unfold list_eqb.
  induction a as [|x a IH]; intros [|y b]; simpl; split; intros H;
    try reflexivity; try discriminate.
  - apply andb_true_iff in H. destruct H as [Hl H].
    apply andb_true_iff in H. destruct H as [Hx H].
    apply String.eqb_eq in Hx. subst. f_equal.
    apply IH. now rewrite Hl, H.
  - inversion H; subst. rewrite String.eqb_refl. simpl.
    apply (IH b). reflexivity.
Qed.

Lemma returns_status_spec (d : decl) :
  returns_status d = true <-> d_ret d = ["cl_int"].
Proof. apply list_eqb_eq. Qed.

Lemma is_errcode_ret_spec (p : param) :
  is_errcode_ret p = true <->
  p_type p = ["cl_int"; "*"]
  /\ exists others, p_names p = "errcode_ret" :: others.
Proof.
  unfold is_errcode_ret. rewrite andb_true_iff, list_eqb_eq.
  split; intros [Ht Hn]; split; try assumption.
  - destruct (p_names p) as [|nm others]; [discriminate|].
    apply String.eqb_eq in Hn. subst. now exists others.
  - destruct Hn as [others ->]. reflexivity.
Qed.

Lemma takes_errcode_ret_spec (d : decl) :
  takes_errcode_ret d = true <->
  exists p, In p (d_params d)
            /\ p_type p = ["cl_int"; "*"]
            /\ exists others, p_names p = "errcode_ret" :: others.
Proof.
  unfold takes_errcode_ret. rewrite existsb_exists.
  split; intros [p [Hin H]]; exists p; split; try assumption;
    now apply is_errcode_ret_spec.
Qed.

Lemma has_error_channel_spec (d : decl) :
  has_error_channel d = true <->
  d_ret d = ["cl_int"]
  \/ exists p, In p (d_params d)
               /\ p_type p = ["cl_int"; "*"]
               /\ exists others, p_names p = "errcode_ret" :: others.
Proof.
  unfold has_error_channel.
  now rewrite orb_true_iff, returns_status_spec, takes_errcode_ret_spec.
Qed.

Lemma last_param_is_errcode_ret_spec (d : decl) :
  last_param_is_errcode_ret d = true <->
  exists front p, d_params d = front ++ [p] /\ is_errcode_ret p = true.
Proof.
  unfold last_param_is_errcode_ret. split.
  - destruct (rev (d_params d)) as [|p front_rev] eqn:E; [discriminate|].
    intros H. exists (rev front_rev), p. split; [|assumption].
    rewrite <- (rev_involutive (d_params d)), E. reflexivity.
  - intros (front & p & -> & H). now rewrite rev_app_distr.
Qed.

Lemma introduced_suffix (d : decl) (v : revision) :
  introduced d = Some v <-> d_suffix d = [suffix_of v].
Proof.
  unfold introduced. split.
  - destruct (d_suffix d) as [|s [|s' r]]; try discriminate.
    destruct (String.eqb s version_2_0) eqn:E0.
    + apply String.eqb_eq in E0. intros [= <-]. now subst.
    + destruct (String.eqb s version_2_1) eqn:E1; [|discriminate].
      apply String.eqb_eq in E1. intros [= <-]. now subst.
  - intros ->. destruct v; reflexivity.
Qed.

Lemma mem_In (s : string) (l : list string) : mem s l = true <-> In s l.
Proof.
  unfold mem. rewrite existsb_exists. split.
  - intros [x [Hin Hx]]. apply String.eqb_eq in Hx. now subst.
  - intros H. exists s. split; [assumption | apply String.eqb_refl].
Qed.

Lemma all_stars (l : list string) :
  forallb (String.eqb "*") l = true -> l = repeat "*" (length l).
Proof.
  induction l as [|x r IH]; intros H; [reflexivity|].
  cbn [forallb] in H. apply andb_true_iff in H. destruct H as [Hx Hr].
  apply String.eqb_eq in Hx. subst x. simpl. f_equal. now apply IH.
Qed.

Lemma return_type_shape_spec (d : decl) :
  return_type_shape d = true <->
  exists ty n, d_ret d = ty :: repeat "*" n /\ is_type_name ty = true.
Proof.
  unfold return_type_shape. split.
  - destruct (d_ret d) as [|ty stars]; [discriminate|].
    intros H. apply andb_true_iff in H. destruct H as [Ht Hs].
    exists ty, (length stars). split; [|exact Ht].
    f_equal. now apply all_stars.
  - intros (ty & n & -> & Ht). rewrite Ht. cbn [andb].
    clear. induction n as [|n IH]; [reflexivity|].
    cbn [repeat forallb]. rewrite String.eqb_refl. exact IH.
Qed.

Lemma within_weaken (p q n k : nat) : p <= q -> within p n k -> within q n k.
Proof. unfold within. nia. Qed.

End Reflect.

(** ** The claims of the specification *)

Module Claims.
Import Source Lexer Header Redeclare Spec ReaderFacts HeaderFacts Reflect.

(** *** Versioning *)

Lemma every_declaration_tagged :
  forallb (fun d => match introduced d with
                    | Some v => mem (banner_of v) (d_banner d)
                    | None => false
                    end) declarations = true.
Proof. vm_compute. reflexivity. Qed.

(** C1. Every function declared in the header is tagged with the API
    revision that introduced it: its prototype ends with exactly one
    suffix word, which is [CL_API_SUFFIX__VERSION_2_0] or
    [CL_API_SUFFIX__VERSION_2_1], so the revision of each entry point
    can be read off its declaration (and the banner above it names
    the same revision). *)
Theorem version_suffix_of_every_declaration (d : decl) :
  In d declarations ->
  exists v,
    introduced d = Some v
    /\ d_suffix d = [suffix_of v]
    /\ (suffix_of v = version_2_0 \/ suffix_of v = version_2_1)
    /\ In (banner_of v) (d_banner d).
Proof.
  intros Hd.
  pose proof every_declaration_tagged as H.
  rewrite forallb_forall in H. specialize (H d Hd).
  destruct (introduced d) as [v|] eqn:E; [|discriminate].
  exists v. split; [reflexivity|].
  split; [apply introduced_suffix; exact E|].
  split; [destruct v; [left | right]; reflexivity | apply mem_In; exact H].
Qed.

Lemma version_suffix_of_clCloneKernel :
  exists v,
    introduced clCloneKernel_decl = Some v
    /\ d_suffix clCloneKernel_decl = [suffix_of v]
    /\ (suffix_of v = version_2_0 \/ suffix_of v = version_2_1)
    /\ In (banner_of v) (d_banner clCloneKernel_decl).
Proof.
  apply (version_suffix_of_every_declaration clCloneKernel_decl).
  vm_compute. do 10 right. left. reflexivity.
Defined.

(** *** Size and structure *)

Lemma twenty_declarations : length declarations = 20.
Proof. vm_compute. reflexivity. Qed.

(** C2, as stated: the number of declarations is not about 16.  The
    header declares 20 entry points, a quarter more. *)
Lemma about_sixteen_declarations_fails : ~ about 16 (length declarations).
Proof.
  rewrite twenty_declarations. unfold about, within, dist. simpl. lia.
Qed.

Lemma sixteen_is_a_fifth_off : ~ within 20 16 (length declarations).
Proof.
  rewrite twenty_declarations. unfold within, dist. simpl. lia.
Qed.

(** C2, amended.  The header is a flat list of exactly 20 function
    declarations with distinct names; every top-level item is one of
    them (there is no object, hence no state), and no declaration
    refers to another declared entry point (no composition, no
    dependency graph). *)
Theorem twenty_flat_declarations :
  length declarations = 20
  /\ NoDup (names declarations)
  /\ read_header new21_h = Some (map IDecl declarations)
  /\ Forall (fun d => depends_on declarations d = []) declarations.
Proof.
  split; [exact twenty_declarations|].
  split.
  - assert (E : nodup string_dec (names declarations) = names declarations)
      by (vm_compute; reflexivity).
    rewrite <- E. apply NoDup_nodup.
  - split.
    + exact header_reads_declarations.
    + apply Forall_forall. intros d Hd.
      assert (H : forallb (fun d => length (depends_on declarations d) =? 0)
                    declarations = true) by (vm_compute; reflexivity).
      rewrite forallb_forall in H. specialize (H d Hd).
      apply Nat.eqb_eq in H.
      destruct (depends_on declarations d); [reflexivity | discriminate H].
Qed.

(** *** Error reporting *)

Lemma channels_counted :
  length (filter has_error_channel declarations) = 18.
Proof. vm_compute. reflexivity. Qed.

Lemma no_logic_tokens : existsb logic_token header_tokens = false.
Proof. vm_compute. reflexivity. Qed.

(** C3. Most declared operations reserve an error channel: 18 of the
    20 declarations return [cl_int] or take a [cl_int *] parameter
    named [errcode_ret].  The header defines no error code: every
    top-level item is a prototype, no token is a defining keyword or
    an operator, and the only words spelled like the API's constants
    ([CL_...]) are the annotation macros of the prototypes. *)
Theorem most_declarations_reserve_an_error_channel :
  length declarations < 2 * length (filter has_error_channel declarations)
  /\ length (filter has_error_channel declarations) = 18
  /\ Forall (fun d =>
               d_ret d = ["cl_int"]
               \/ exists p, In p (d_params d)
                            /\ p_type p = ["cl_int"; "*"]
                            /\ exists others,
                                 p_names p = "errcode_ret" :: others)
       (filter has_error_channel declarations)
  /\ read_header new21_h = Some (map IDecl declarations)
  /\ existsb logic_token header_tokens = false
  /\ nodup string_dec (filter (String.prefix "CL_") (words header_tokens))
     = ["CL_CALLBACK"; "CL_API_SUFFIX__VERSION_2_0"; "CL_API_ENTRY";
        "CL_API_CALL"; "CL_API_SUFFIX__VERSION_2_1"].
Proof.
  split; [rewrite channels_counted, twenty_declarations; lia|].
  split; [exact channels_counted|].
  split.
  - apply Forall_forall. intros d Hd.
    pose proof (proj1 (filter_In _ _ _) Hd) as [_ Hc].
    apply has_error_channel_spec. exact Hc.
  - split; [exact header_reads_declarations|].
    split; [exact no_logic_tokens|].
    vm_compute. reflexivity.
Qed.

(** C8. The two ways of reporting an error exclude each other and
    follow the return type: the declarations that return an object
    handle are [clCreateCommandQueueWithProperties], [clCreatePipe],
    [clCreateSamplerWithProperties], [clCreateProgramWithIL] and
    [clCloneKernel], each of them takes [cl_int * errcode_ret] as its
    last parameter, and no declaration that returns [cl_int] takes an
    [errcode_ret] parameter. *)
Theorem error_channel_follows_return_type :
  names (filter returns_handle declarations)
  = ["clCreateCommandQueueWithProperties"; "clCreatePipe";
     "clCreateSamplerWithProperties"; "clCreateProgramWithIL";
     "clCloneKernel"]
  /\ Forall (fun d => exists front p,
                        d_params d = front ++ [p]
                        /\ p_type p = ["cl_int"; "*"]
                        /\ exists others, p_names p = "errcode_ret" :: others)
       (filter returns_handle declarations)
  /\ Forall (fun d => takes_errcode_ret d = false)
       (filter returns_status declarations)
  /\ Forall (fun d => takes_errcode_ret d = returns_handle d
                      /\ returns_status d && takes_errcode_ret d = false)
       declarations.
Proof.
  split; [vm_compute; reflexivity|].
  split.
  - assert (H : forallb last_param_is_errcode_ret
                  (filter returns_handle declarations) = true)
      by (vm_compute; reflexivity).
    rewrite forallb_forall in H.
    apply Forall_forall. intros d Hd. specialize (H d Hd). clear Hd.
    apply last_param_is_errcode_ret_spec in H.
    destruct H as (front & p & Hp & He).
    apply is_errcode_ret_spec in He.
    exists front, p. split; [exact Hp | exact He].
  - split.
    + assert (H : forallb (fun d => negb (takes_errcode_ret d))
                    (filter returns_status declarations) = true)
        by (vm_compute; reflexivity).
      rewrite forallb_forall in H.
      apply Forall_forall. intros d Hd. specialize (H d Hd). clear Hd.
      apply negb_true_iff. exact H.
    + assert (H : forallb
                    (fun d =>
                       Bool.eqb (takes_errcode_ret d) (returns_handle d)
                       && negb (returns_status d && takes_errcode_ret d))
                    declarations = true)
        by (vm_compute; reflexivity).
      rewrite forallb_forall in H.
      apply Forall_forall. intros d Hd. specialize (H d Hd). clear Hd.
      apply andb_true_iff in H. destruct H as [H1 H2].
      split; [apply Bool.eqb_prop; exact H1 | apply negb_true_iff; exact H2].
Qed.

(** C9. [clSVMAlloc] and [clSVMFree] are the only declarations without
    an error channel: [clSVMAlloc] returns [void *] and takes no
    [errcode_ret], [clSVMFree] returns [void], and every other
    declaration returns [cl_int] or takes [cl_int * errcode_ret]. *)
Theorem only_svm_alloc_and_free_lack_a_channel :
  names (filter (fun d => negb (has_error_channel d)) declarations)
  = ["clSVMAlloc"; "clSVMFree"]
  /\ map (fun d => (d_ret d, takes_errcode_ret d))
       (filter (fun d => String.eqb (d_name d) "clSVMAlloc") declarations)
     = [(["void"; "*"], false)]
  /\ map (fun d => (d_ret d, takes_errcode_ret d))
       (filter (fun d => String.eqb (d_name d) "clSVMFree") declarations)
     = [(["void"], false)]
  /\ Forall (fun d =>
               d_ret d = ["cl_int"]
               \/ exists p, In p (d_params d)
                            /\ p_type p = ["cl_int"; "*"]
                            /\ exists others,
                                 p_names p = "errcode_ret" :: others)
       (filter (fun d => negb (mem (d_name d) ["clSVMAlloc"; "clSVMFree"]))
          declarations).
Proof.
  split; [vm_compute; reflexivity|].
  split; [vm_compute; reflexivity|].
  split; [vm_compute; reflexivity|].
  assert (H : forallb has_error_channel
                (filter
                   (fun d => negb (mem (d_name d) ["clSVMAlloc"; "clSVMFree"]))
                   declarations) = true)
    by (vm_compute; reflexivity).
  rewrite forallb_forall in H.
  apply Forall_forall. intros d Hd. specialize (H d Hd). clear Hd.
  apply has_error_channel_spec. exact H.
Qed.

(** *** Functional groups *)

(** C4, as stated: the advertised groups do not cover the declared
    entry points exactly.  [clCreatePipe] is declared and belongs to
    none of them. *)
Lemma groups_do_not_cover_exactly : ~ covers_exactly declarations.
Proof.
  intros [_ H]. specialize (H clCreatePipe_decl clCreatePipe_declared).
  vm_compute in H. discriminate H.
Qed.

(** C4, amended.  The declared entry points include every advertised
    group: queue creation, shared-virtual-memory management, kernel
    cloning, sub-group introspection and the [clEnqueueSVM...]
    family.  They are not limited to these groups: eight further
    entry points (default device queue, timers, pipes, samplers,
    programs from IL, kernel execution info) are declared as well. *)
Theorem advertised_groups_are_declared :
  names (filter queue_creation declarations)
  = ["clCreateCommandQueueWithProperties"]
  /\ names (filter svm_management declarations)
     = ["clSVMAlloc"; "clSVMFree"; "clSetKernelArgSVMPointer"]
  /\ names (filter kernel_cloning declarations) = ["clCloneKernel"]
  /\ names (filter sub_group_introspection declarations)
     = ["clGetKernelSubGroupInfo"]
  /\ names (filter async_svm declarations)
     = ["clEnqueueSVMFree"; "clEnqueueSVMMemcpy"; "clEnqueueSVMMemFill";
        "clEnqueueSVMMap"; "clEnqueueSVMUnmap"; "clEnqueueSVMMigrateMem"]
  /\ names (filter (fun d => negb (in_some_group d)) declarations)
     = ["clSetDefaultDeviceCommandQueue"; "clGetDeviceAndHostTimer";
        "clGetHostTimer"; "clCreatePipe"; "clGetPipeInfo";
        "clCreateSamplerWithProperties"; "clCreateProgramWithIL";
        "clSetKernelExecInfo"].
Proof. repeat split; vm_compute; reflexivity. Qed.

(** *** Declarations only *)

Lemma header_items_concat : concat header_items = header_tokens.
Proof. exact (split_items_concat header_tokens 0 []). Qed.

Lemma header_items_are_prototypes : Forall is_prototype header_items.
Proof.
  apply Forall_forall. intros ts Hts.
  pose proof (in_map read_item _ _ Hts) as Hr.
  rewrite header_items_read in Hr.
  pose proof (proj1 (in_map_iff _ _ _) Hr) as [d [Hd _]].
  symmetry in Hd.
  destruct (read_item_shape ts d Hd) as (rt & g & Heq & _).
  exists (d_banner d), rt, (d_name d), g, (d_suffix d). exact Heq.
Qed.

Lemma return_types_are_types :
  forallb return_type_shape declarations = true.
Proof. vm_compute. reflexivity. Qed.

(** C5. The header contains declarations only: its text splits, with
    nothing left over, into top-level items that are each one [extern]
    prototype closed by a semicolon right after its suffix (so none
    has a body), and no token of the header is a brace, an operator,
    or a keyword of a statement or of a definition.  Each item
    declares a function and nothing else: between [CL_API_ENTRY] and
    [CL_API_CALL] stands one type name followed only by pointer stars
    (no second declarator, no object), and after the parameter list
    stands one version macro and the semicolon. *)
Theorem header_is_declarations_only :
  lex (text new21_h) = Some header_tokens
  /\ concat header_items = header_tokens
  /\ Forall is_prototype header_items
  /\ map read_item header_items = map IDecl declarations
  /\ existsb logic_token header_tokens = false
  /\ nodup ascii_dec (puncts header_tokens)
     = ["["; "]"; "("; ","; "*"; ")"; ";"]%char
  /\ Forall (fun d => exists ty n,
                        d_ret d = ty :: repeat "*" n
                        /\ is_type_name ty = true) declarations
  /\ Forall (fun d => exists v, d_suffix d = [suffix_of v]) declarations.
Proof.
  split; [exact header_lexes|].
  split; [exact header_items_concat|].
  split; [exact header_items_are_prototypes|].
  split; [exact header_items_read|].
  split; [exact no_logic_tokens|].
  split; [vm_compute; reflexivity|].
  split.
  - pose proof return_types_are_types as H.
    rewrite forallb_forall in H.
    apply Forall_forall. intros d Hd. specialize (H d Hd). clear Hd.
    apply return_type_shape_spec. exact H.
  - pose proof every_declaration_tagged as H.
    rewrite forallb_forall in H.
    apply Forall_forall. intros d Hd. specialize (H d Hd). clear Hd.
    destruct (introduced d) as [v|] eqn:E; [|discriminate H].
    exists v. apply introduced_suffix. exact E.
Qed.

(** *** Types *)

Lemma type_names_are_placed :
  forallb (fun '(s, p) => implb (is_type_name s) (type_position p))
    all_placed_words = true.
Proof. vm_compute. reflexivity. Qed.

Lemma placed_words_are_the_words :
  map fst all_placed_words = words header_tokens.
Proof. vm_compute. reflexivity. Qed.

Lemma no_defining_keyword :
  existsb (fun w => mem w defining_keywords) (words header_tokens) = false.
Proof. vm_compute. reflexivity. Qed.

Lemma mentioned_types :
  forallb (fun t => mem t (words header_tokens))
    ["cl_context"; "cl_device_id"; "cl_command_queue"; "cl_mem";
     "cl_kernel"; "cl_event"; "cl_queue_properties"; "cl_pipe_properties";
     "cl_sampler_properties"] = true.
Proof. vm_compute. reflexivity. Qed.

(** C6. The header defines no type.  Every top-level item is a
    prototype, every word of the header is a word of one of its
    prototypes, no word starts a definition, and wherever a type name
    occurs ([cl_context], [cl_device_id], [cl_command_queue],
    [cl_mem], [cl_kernel], [cl_event], the property-list types, ...)
    it stands in the return type or in the parameter list of a
    prototype. *)
Theorem types_occur_only_in_signatures (s : string) (p : position) :
  In (s, p) all_placed_words ->
  is_type_name s = true ->
  (p = PReturn \/ p = PParam)
  /\ map fst all_placed_words = words header_tokens
  /\ Forall is_prototype header_items
  /\ existsb (fun w => mem w defining_keywords) (words header_tokens) = false
  /\ forallb is_type_name
       ["cl_context"; "cl_device_id"; "cl_command_queue"; "cl_mem";
        "cl_kernel"; "cl_event"; "cl_queue_properties"; "cl_pipe_properties";
        "cl_sampler_properties"] = true.
Proof.
  intros Hin Hty.
  pose proof type_names_are_placed as H.
  rewrite forallb_forall in H. specialize (H (s, p) Hin). clear Hin.
  simpl in H. rewrite Hty in H. simpl in H.
  split.
  - destruct p; try discriminate H; [left | right]; reflexivity.
  - split; [exact placed_words_are_the_words|].
    split; [exact header_items_are_prototypes|].
    split; [exact no_defining_keyword | reflexivity].
Qed.

Lemma cl_context_is_a_parameter_type :
  (PParam = PReturn \/ PParam = PParam)
  /\ map fst all_placed_words = words header_tokens
  /\ Forall is_prototype header_items
  /\ existsb (fun w => mem w defining_keywords) (words header_tokens) = false
  /\ forallb is_type_name
       ["cl_context"; "cl_device_id"; "cl_command_queue"; "cl_mem";
        "cl_kernel"; "cl_event"; "cl_queue_properties"; "cl_pipe_properties";
        "cl_sampler_properties"] = true.
Proof.
  apply (types_occur_only_in_signatures "cl_context" PParam).
  - vm_compute. do 5 right. left. reflexivity.
  - reflexivity.
Defined.

(** *** Lines *)

(** C7. The header is roughly 167 lines long (166), and none of its
    lines carries logic: 24 lines are blank, 21 are comments, and the
    remaining 121 hold, token for token, the 20 prototypes.  Writing
    the declarations back in the same layout gives a header of about
    the same size (159 lines) that reads as the same declarations and
    has no line of logic either. *)
Theorem header_lines :
  length new21_h = 166
  /\ about 167 (length new21_h)
  /\ length (filter logic_line new21_h) = 0
  /\ count_kind LBlank new21_h = 24
  /\ count_kind LComment new21_h = 21
  /\ count_kind LCode new21_h = 121
  /\ count_kind LBroken new21_h = 0
  /\ concat (map tokens_of_line new21_h) = header_tokens
  /\ Forall is_prototype header_items
  /\ read_header (redeclare declarations) = Some (map IDecl declarations)
  /\ about (length new21_h) (length (redeclare declarations))
  /\ length (filter logic_line (redeclare declarations)) = 0.
Proof.
  assert (Hlen : length new21_h = 166) by (vm_compute; reflexivity).
  assert (Hre : length (redeclare declarations) = 159)
    by (vm_compute; reflexivity).
  split; [exact Hlen|].
  split; [rewrite Hlen; unfold about, within, dist; simpl; lia|].
  split; [vm_compute; reflexivity|].
  split; [vm_compute; reflexivity|].
  split; [vm_compute; reflexivity|].
  split; [vm_compute; reflexivity|].
  split; [vm_compute; reflexivity|].
  split; [vm_compute; reflexivity|].
  split; [exact header_items_are_prototypes|].
  split; [vm_compute; reflexivity|].
  split; [rewrite Hlen, Hre; unfold about, within, dist; simpl; lia|].
  vm_compute. reflexivity.
Qed.

End Claims.

(** ** What the signature shapes mean *)

Module SignatureFacts.
Import Source Lexer Header Spec Signatures Reflect.

Lemma params_eqb_eq (a b : list param) : params_eqb a b = true -> a = b.
Proof.
  unfold params_eqb. destruct (list_eq_dec param_dec a b) as [E|_];
    [intros _; exact E | discriminate].
Qed.

Lemma last_params_app (n : nat) (d : decl) (l : list param) :
  last_params n d = l ->
  d_params d = firstn (length (d_params d) - n) (d_params d) ++ l.
Proof.
  unfold last_params. intros <-. symmetry. apply firstn_skipn.
Qed.

Lemma not_mem_not_In (s : string) (l : list string) :
  mem s l = false -> ~ In s l.
Proof.
  intros H Hin. apply mem_In in Hin. rewrite Hin in H. discriminate.
Qed.

Lemma none_takes (t : string) (ps : list param) :
  existsb (fun p => mem t (p_type p)) ps = false ->
  Forall (fun p => ~ In t (p_type p)) ps.
Proof.
  induction ps as [|p r IH]; intros H; constructor.
  - simpl in H. apply orb_false_iff in H. apply not_mem_not_In, H.
  - apply IH. simpl in H. apply orb_false_iff in H. apply H.
Qed.

Lemma enqueue_shape_spec (d : decl) :
  enqueue_shape d = true ->
  d_ret d = ["cl_int"]
  /\ exists mid, d_params d = command_queue_param :: mid ++ event_params.
Proof.
  unfold enqueue_shape. intros H.
  apply andb_true_iff in H. destruct H as [H H4].
  apply andb_true_iff in H. destruct H as [H H3].
  apply andb_true_iff in H. destruct H as [H1 H2].
  apply returns_status_spec in H1. apply params_eqb_eq in H2.
  apply params_eqb_eq in H4. apply Nat.leb_le in H3.
  split; [exact H1|].
  unfold last_params in H4.
  destruct (d_params d) as [|q rest]; [discriminate H2|].
  simpl in H2. injection H2 as ->.
  assert (E : length (command_queue_param :: rest) - 3
              = S (length rest - 3)) by (simpl length in *; lia).
  rewrite E in H4. simpl in H4.
  exists (firstn (length rest - 3) rest).
  rewrite <- H4. rewrite firstn_skipn. reflexivity.
Qed.

Lemma info_shape_spec (d : decl) :
  info_shape d = true ->
  d_ret d = ["cl_int"]
  /\ (exists front, d_params d = front ++ info_params)
  /\ exists p, In p (d_params d) /\ p_name p = Some "param_name".
Proof.
  unfold info_shape. intros H.
  apply andb_true_iff in H. destruct H as [H H3].
  apply andb_true_iff in H. destruct H as [H1 H2].
  apply returns_status_spec in H1. apply params_eqb_eq in H2.
  split; [exact H1|]. split.
  - eexists. apply last_params_app. exact H2.
  - apply existsb_exists in H3. destruct H3 as [p [Hin Hp]].
    exists p. split; [exact Hin|].
    destruct (p_name p) as [n|]; [|discriminate].
    apply String.eqb_eq in Hp. now subst.
Qed.

Lemma context_first_spec (d : decl) :
  context_first d = true ->
  exists rest,
    d_params d = context_param :: rest
    /\ Forall (fun p => ~ In "cl_context" (p_type p)) rest.
Proof.
  unfold context_first. intros H.
  apply andb_true_iff in H. destruct H as [H1 H2].
  apply params_eqb_eq in H1. apply negb_true_iff in H2.
  destruct (d_params d) as [|q rest]; [discriminate H1|].
  simpl in H1. injection H1 as ->.
  exists rest. split; [reflexivity|]. apply none_takes. exact H2.
Qed.

Lemma blocking_shape_spec (d : decl) :
  blocking_shape d = true ->
  exists q p rest n,
    d_params d = q :: p :: rest
    /\ p_type p = ["cl_bool"]
    /\ p_names p = [n]
    /\ String.prefix "blocking_" n = true
    /\ Forall (fun r => ~ In "cl_bool" (p_type r)) (q :: rest).
Proof.
  unfold blocking_shape. intros H.
  destruct (d_params d) as [|q [|p rest]]; try discriminate H.
  apply andb_true_iff in H. destruct H as [H H4].
  apply andb_true_iff in H. destruct H as [H H3].
  apply andb_true_iff in H. destruct H as [H1 H2].
  apply list_eqb_eq in H1.
  apply negb_true_iff in H3. apply negb_true_iff in H4.
  destruct (p_names p) as [|n [|n' r]] eqn:En; try discriminate H2.
  exists q, p, rest, n. repeat split; try assumption.
  constructor; [apply not_mem_not_In; exact H3 | apply none_takes; exact H4].
Qed.

Lemma named_params_spec (d : decl) :
  named_params d = true ->
  Forall (fun p => p_type p <> [] /\ p_names p <> []) (d_params d)
  /\ NoDup (param_names d).
Proof.
  unfold named_params. intros H.
  apply andb_true_iff in H. destruct H as [H1 H2]. split.
  - apply Forall_forall. intros p Hp.
    rewrite forallb_forall in H1. specialize (H1 p Hp).
    apply andb_true_iff in H1. destruct H1 as [Ht Hn].
    split; intros E; rewrite E in *; discriminate.
  - destruct (list_eq_dec option_string_dec
                (nodup option_string_dec (param_names d)) (param_names d))
      as [E|_]; [|discriminate].
    rewrite <- E. apply NoDup_nodup.
Qed.

End SignatureFacts.

(** ** Conventions of the signatures *)

Module Conventions.
Import Source Lexer Header Spec Signatures Reflect SignatureFacts.

Lemma takes_type_spec (t : string) (d : decl) :
  takes_type t d = true <-> exists p, In p (d_params d) /\ In t (p_type p).
Proof.
  unfold takes_type. rewrite existsb_exists.
  split; intros [p [Hin H]]; exists p; split; try assumption;
    now apply mem_In.
Qed.

Lemma enqueue_shapes :
  forallb (fun d => Bool.eqb (async_svm d) (enqueue_shape d)
                    && Bool.eqb (async_svm d) (takes_type "cl_event" d))
    declarations = true.
Proof. vm_compute. reflexivity. Qed.

(** Every [clEnqueueSVM...] command returns the status, takes the
    command queue first, and ends with the wait list and the event:
    [cl_uint num_events_in_wait_list], [const cl_event *
    event_wait_list], [cl_event * event]. *)
Theorem enqueue_svm_commands_share_a_signature (d : decl) :
  In d declarations ->
  async_svm d = true ->
  d_ret d = ["cl_int"]
  /\ exists mid, d_params d = command_queue_param :: mid ++ event_params.
Proof.
  intros Hd Ha.
  pose proof enqueue_shapes as H.
  rewrite forallb_forall in H. specialize (H d Hd). clear Hd.
  apply andb_true_iff in H. destruct H as [H _].
  apply Bool.eqb_prop in H. rewrite Ha in H.
  apply enqueue_shape_spec. symmetry. exact H.
Qed.

Lemma enqueue_svm_signature_of_clEnqueueSVMUnmap :
  d_ret clEnqueueSVMUnmap_decl = ["cl_int"]
  /\ exists mid,
       d_params clEnqueueSVMUnmap_decl
       = command_queue_param :: mid ++ event_params.
Proof.
  apply (enqueue_svm_commands_share_a_signature clEnqueueSVMUnmap_decl).
  - vm_compute. do 18 right. left. reflexivity.
  - reflexivity.
Defined.

(** Events belong to the commands only: a declaration has a parameter
    whose type mentions [cl_event] exactly when its name starts with
    [clEnqueueSVM]. *)
Theorem events_only_in_enqueue_svm_commands (d : decl) :
  In d declarations ->
  ((exists p, In p (d_params d) /\ In "cl_event" (p_type p))
   <-> String.prefix "clEnqueueSVM" (d_name d) = true).
Proof.
  intros Hd.
  pose proof enqueue_shapes as H.
  rewrite forallb_forall in H. specialize (H d Hd). clear Hd.
  apply andb_true_iff in H. destruct H as [_ H].
  apply Bool.eqb_prop in H. unfold async_svm in H.
  rewrite <- takes_type_spec, H. reflexivity.
Qed.

Lemma events_of_clGetPipeInfo :
  (exists p, In p (d_params clGetPipeInfo_decl) /\ In "cl_event" (p_type p))
  <-> String.prefix "clEnqueueSVM" (d_name clGetPipeInfo_decl) = true.
Proof.
  apply (events_only_in_enqueue_svm_commands clGetPipeInfo_decl).
  vm_compute. do 5 right. left. reflexivity.
Defined.

(** Seven entry points are new in revision 2.1 and thirteen in 2.0;
    a binding for a 2.0 driver has exactly the thirteen. *)
Theorem entry_points_by_revision :
  names (filter (introduced_in V2_1) declarations)
  = ["clSetDefaultDeviceCommandQueue"; "clGetDeviceAndHostTimer";
     "clGetHostTimer"; "clCreateProgramWithIL"; "clCloneKernel";
     "clGetKernelSubGroupInfo"; "clEnqueueSVMMigrateMem"]
  /\ names (filter (introduced_in V2_0) declarations)
     = ["clCreateCommandQueueWithProperties"; "clCreatePipe";
        "clGetPipeInfo"; "clSVMAlloc"; "clSVMFree";
        "clCreateSamplerWithProperties"; "clSetKernelArgSVMPointer";
        "clSetKernelExecInfo"; "clEnqueueSVMFree"; "clEnqueueSVMMemcpy";
        "clEnqueueSVMMemFill"; "clEnqueueSVMMap"; "clEnqueueSVMUnmap"].
Proof. split; vm_compute; reflexivity. Qed.

Lemma blocking_shapes :
  forallb (fun d => implb (takes_type "cl_bool" d)
                      (blocking_shape d && async_svm d
                       && mem (d_name d)
                            ["clEnqueueSVMMemcpy"; "clEnqueueSVMMap"]))
    declarations = true.
Proof. vm_compute. reflexivity. Qed.

(** Only [clEnqueueSVMMemcpy] and [clEnqueueSVMMap] can block: a
    declaration that takes a [cl_bool] is one of these two, and its
    one [cl_bool] is the second parameter, named [blocking_...]. *)
Theorem blocking_flag_of_a_command (d : decl) :
  In d declarations ->
  takes_type "cl_bool" d = true ->
  In (d_name d) ["clEnqueueSVMMemcpy"; "clEnqueueSVMMap"]
  /\ exists q p rest n,
       d_params d = q :: p :: rest
       /\ p_type p = ["cl_bool"]
       /\ p_names p = [n]
       /\ String.prefix "blocking_" n = true
       /\ Forall (fun r => ~ In "cl_bool" (p_type r)) (q :: rest).
Proof.
  intros Hd Hb.
  pose proof blocking_shapes as H.
  rewrite forallb_forall in H. specialize (H d Hd). clear Hd.
  rewrite Hb in H. simpl in H.
  apply andb_true_iff in H. destruct H as [H Hn].
  apply andb_true_iff in H. destruct H as [Hs _].
  split; [apply mem_In; exact Hn | apply blocking_shape_spec; exact Hs].
Qed.

Lemma blocking_flag_of_clEnqueueSVMMemcpy :
  In (d_name clEnqueueSVMMemcpy_decl)
    ["clEnqueueSVMMemcpy"; "clEnqueueSVMMap"]
  /\ exists q p rest n,
       d_params clEnqueueSVMMemcpy_decl = q :: p :: rest
       /\ p_type p = ["cl_bool"]
       /\ p_names p = [n]
       /\ String.prefix "blocking_" n = true
       /\ Forall (fun r => ~ In "cl_bool" (p_type r)) (q :: rest).
Proof.
  apply (blocking_flag_of_a_command clEnqueueSVMMemcpy_decl).
  - vm_compute. do 15 right. left. reflexivity.
  - reflexivity.
Defined.

Lemma info_shapes :
  forallb (fun d => implb (is_info_query d) (info_shape d)) declarations
  = true.
Proof. vm_compute. reflexivity. Qed.

(** Every [clGet...Info] query returns the status, has a parameter
    named [param_name], and ends with the value buffer: [size_t
    param_value_size], [void * param_value], [size_t *
    param_value_size_ret]. *)
Theorem info_queries_share_a_signature (d : decl) :
  In d declarations ->
  is_info_query d = true ->
  d_ret d = ["cl_int"]
  /\ (exists front, d_params d = front ++ info_params)
  /\ exists p, In p (d_params d) /\ p_name p = Some "param_name".
Proof.
  intros Hd Hq.
  pose proof info_shapes as H.
  rewrite forallb_forall in H. specialize (H d Hd). clear Hd.
  rewrite Hq in H. simpl in H.
  apply info_shape_spec. exact H.
Qed.

Lemma info_signature_of_clGetPipeInfo :
  d_ret clGetPipeInfo_decl = ["cl_int"]
  /\ (exists front, d_params clGetPipeInfo_decl = front ++ info_params)
  /\ exists p, In p (d_params clGetPipeInfo_decl)
               /\ p_name p = Some "param_name".
Proof.
  apply (info_queries_share_a_signature clGetPipeInfo_decl).
  - vm_compute. do 5 right. left. reflexivity.
  - reflexivity.
Defined.

Lemma context_shapes :
  forallb (fun d => implb (is_creator d || takes_type "cl_context" d)
                      (context_first d)) declarations = true.
Proof. vm_compute. reflexivity. Qed.

(** Every [clCreate...] entry point takes the context, and wherever a
    declaration takes a context it is the first parameter, [cl_context
    context], and no later parameter mentions one. *)
Theorem context_comes_first (d : decl) :
  In d declarations ->
  is_creator d = true \/ takes_type "cl_context" d = true ->
  exists rest,
    d_params d = context_param :: rest
    /\ Forall (fun p => ~ In "cl_context" (p_type p)) rest.
Proof.
  intros Hd Hc.
  pose proof context_shapes as H.
  rewrite forallb_forall in H. specialize (H d Hd). clear Hd.
  apply context_first_spec.
  destruct Hc as [Hc|Hc]; rewrite Hc in H;
    [|rewrite orb_true_r in H]; exact H.
Qed.

Lemma context_of_clCreatePipe :
  exists rest,
    d_params clCreatePipe_decl = context_param :: rest
    /\ Forall (fun p => ~ In "cl_context" (p_type p)) rest.
Proof.
  apply (context_comes_first clCreatePipe_decl).
  - vm_compute. do 4 right. left. reflexivity.
  - left. reflexivity.
Defined.

Lemma callback_mirrors_spec (d : decl) (p : param) :
  callback_mirrors d p = true ->
  callback_signature p = Some (["void"], types_of_named d callback_arguments).
Proof.
  unfold callback_mirrors.
  destruct (callback_signature p) as [[r args]|]; [|discriminate].
  intros H. apply andb_true_iff in H. destruct H as [Hr Ha].
  apply list_eqb_eq in Hr.
  destruct (list_eq_dec (list_eq_dec string_dec) args
              (types_of_named d callback_arguments)) as [E|_];
    [|discriminate].
  now subst.
Qed.

Lemma callback_shapes :
  forallb (fun d =>
             forallb (callback_mirrors d) (callbacks d)
             && implb (negb (length (callbacks d) =? 0))
                  (String.eqb (d_name d) "clEnqueueSVMFree"
                   && (length (types_of_named d callback_arguments) =? 4)))
    declarations = true.
Proof. vm_compute. reflexivity. Qed.

(** Only [clEnqueueSVMFree] takes a callback.  The callback returns
    nothing, and its four arguments have, in order, the types of the
    command's own parameters [command_queue], [num_svm_pointers],
    [svm_pointers[]] and [user_data], each of which the command has
    exactly once. *)
Theorem callback_takes_what_the_command_takes (d : decl) (p : param) :
  In d declarations ->
  In p (callbacks d) ->
  d_name d = "clEnqueueSVMFree"
  /\ callback_signature p
     = Some (["void"], types_of_named d callback_arguments)
  /\ length (types_of_named d callback_arguments) = 4.
Proof.
  intros Hd Hp.
  pose proof callback_shapes as H.
  rewrite forallb_forall in H. specialize (H d Hd). clear Hd.
  apply andb_true_iff in H. destruct H as [Hm Hn].
  rewrite forallb_forall in Hm. specialize (Hm p Hp).
  destruct (callbacks d) as [|c cs]; [destruct Hp|].
  simpl in Hn. apply andb_true_iff in Hn. destruct Hn as [Hname Hlen].
  split; [apply String.eqb_eq; exact Hname|].
  split; [apply callback_mirrors_spec; exact Hm | apply Nat.eqb_eq; exact Hlen].
Qed.

Lemma callback_of_clEnqueueSVMFree :
  d_name clEnqueueSVMFree_decl = "clEnqueueSVMFree"
  /\ callback_signature pfn_free_func_param
     = Some (["void"],
             types_of_named clEnqueueSVMFree_decl callback_arguments)
  /\ length (types_of_named clEnqueueSVMFree_decl callback_arguments) = 4.
Proof.
  apply (callback_takes_what_the_command_takes
           clEnqueueSVMFree_decl pfn_free_func_param).
  - vm_compute. do 14 right. left. reflexivity.
  - vm_compute. left. reflexivity.
Defined.

Lemma all_parameters_named : forallb named_params declarations = true.
Proof. vm_compute. reflexivity. Qed.

(** No parameter is anonymous: every parameter of every declaration
    has a type and a name in a comment, and the names of the
    parameters of one declaration are pairwise distinct. *)
Theorem parameters_are_named (d : decl) :
  In d declarations ->
  Forall (fun p => p_type p <> [] /\ p_names p <> []) (d_params d)
  /\ NoDup (param_names d).
Proof.
  intros Hd.
  pose proof all_parameters_named as H.
  rewrite forallb_forall in H. specialize (H d Hd). clear Hd.
  apply named_params_spec. exact H.
Qed.

Lemma parameters_of_clCreatePipe_are_named :
  Forall (fun p => p_type p <> [] /\ p_names p <> [])
    (d_params clCreatePipe_decl)
  /\ NoDup (param_names clCreatePipe_decl).
Proof.
  apply (parameters_are_named clCreatePipe_decl).
  vm_compute. do 4 right. left. reflexivity.
Defined.

(** The entry points make command queues, memory objects, samplers,
    programs and kernels.  Queues, memory objects and kernels are
    taken by other entry points of the header; no entry point of the
    header takes a sampler or a program. *)
Theorem objects_made_and_taken :
  handle_types declarations
  = ["cl_command_queue"; "cl_mem"; "cl_sampler"; "cl_program"; "cl_kernel"]
  /\ consumers declarations "cl_command_queue"
     = ["clSetDefaultDeviceCommandQueue"; "clEnqueueSVMFree";
        "clEnqueueSVMMemcpy"; "clEnqueueSVMMemFill"; "clEnqueueSVMMap";
        "clEnqueueSVMUnmap"; "clEnqueueSVMMigrateMem"]
  /\ consumers declarations "cl_mem" = ["clGetPipeInfo"]
  /\ consumers declarations "cl_kernel"
     = ["clCloneKernel"; "clSetKernelArgSVMPointer"; "clSetKernelExecInfo";
        "clGetKernelSubGroupInfo"]
  /\ consumers declarations "cl_sampler" = []
  /\ consumers declarations "cl_program" = [].
Proof. repeat split; vm_compute; reflexivity. Qed.

(** What [clSVMAlloc] returns can be passed on as it is: every
    parameter named [svm_pointer], [svm_ptr] or [dst_ptr] has the
    type [void *] that [clSVMAlloc] returns, and every parameter
    named [src_ptr], [pattern], [arg_value], [il] or [input_value] is
    a [const void *]. *)
Theorem svm_pointers_have_the_allocated_type :
  return_types_of "clSVMAlloc" declarations = [["void"; "*"]]
  /\ Forall (fun p => [p_type p] = return_types_of "clSVMAlloc" declarations)
       (params_named svm_pointer_names declarations)
  /\ length (params_named svm_pointer_names declarations) = 5
  /\ Forall (fun p => p_type p = ["const"; "void"; "*"])
       (params_named read_only_names declarations)
  /\ length (params_named read_only_names declarations) = 5.
Proof.
  assert (Hr : return_types_of "clSVMAlloc" declarations = [["void"; "*"]])
    by (vm_compute; reflexivity).
  split; [exact Hr|].
  split.
  - assert (H : forallb (fun p => list_eqb (p_type p) ["void"; "*"])
                  (params_named svm_pointer_names declarations) = true)
      by (vm_compute; reflexivity).
    rewrite forallb_forall in H. rewrite Hr.
    apply Forall_forall. intros p Hp. specialize (H p Hp). clear Hp.
    f_equal. apply list_eqb_eq. exact H.
  - split; [vm_compute; reflexivity|].
    split; [|vm_compute; reflexivity].
    assert (H : forallb (fun p => list_eqb (p_type p) ["const"; "void"; "*"])
                  (params_named read_only_names declarations) = true)
      by (vm_compute; reflexivity).
    rewrite forallb_forall in H.
    apply Forall_forall. intros p Hp. specialize (H p Hp). clear Hp.
    apply list_eqb_eq. exact H.
Qed.

End Conventions.
